(** * The benchmark webhook of [scripts/webhook.py]

    A shallow embedding of the Flask view [response] and of the start-up
    block of the script, followed by the properties of the handler.

    The handler talks to three things that are not part of the script:
    the operating system (through [subprocess.run]), the standard output
    (through [print], which can raise) and Python's own [str].  They are
    gathered in the [Runtime] class below; the handler is written in a small
    state and exception monad over a [world] that records what crossed that
    boundary. *)

From Stdlib Require Import ZArith String List.
From Stdlib Require Import Floats.SpecFloat.
From stdpp Require Import base option gmap strings list.

Set Warnings "-register-all".
Set Default Proof Using "Type".

(** ** Python values and exceptions *)

Module Py.

(** What [json.loads] can produce: [None], [bool], [int], [float], [str],
    [list] and [dict] with [str] keys. *)
Inductive pyval : Type :=
  | PNone
  | PBool (b : bool)
  | PInt (n : Z)
  | PFloat (f : spec_float)
  | PStr (s : string)
  | PList (l : list pyval)
  | PDict (m : gmap string pyval).

(** The exceptions that can travel through the handler.
    - [KeyError k]: [d[k]] on a dict [d] without the key [k];
    - [TypeError o]: [o[k]] with a [str] key on an object [o] that is not
      a dict (the message text depends on the interpreter version, the
      constructor records the offending object);
    - [CalledProcessError rc cmd]: raised by [subprocess.run] under
      [check=True] when the process exits with [rc <> 0];
    - [LibraryError cls detail]: any other subclass of [Exception] raised
      by a library ([OSError], [ValueError], werkzeug's [BadRequest], ...);
    - [KeyboardInterrupt]: derives from [BaseException] only. *)
Inductive exn : Type :=
  | KeyError (key : string)
  | TypeError (obj : pyval)
  | CalledProcessError (returncode : Z) (cmd : pyval)
  | LibraryError (cls : string) (detail : string)
  | KeyboardInterrupt.

(** [isinstance(e, Exception)] *)
Definition is_Exception (e : exn) : bool :=
  match e with
  | KeyboardInterrupt => false
  | _ => true
  end.

(** [v == s] for a [str] literal [s]: only a [str] with the same
    characters compares equal. *)
Definition eq_str (v : pyval) (s : string) : bool :=
  match v with
  | PStr t => String.eqb t s
  | _ => false
  end.

(** The outcome of an expression or statement. *)
Inductive result (A : Type) : Type :=
  | Return (a : A)
  | Raise (e : exn).
Arguments Return {A} a.
Arguments Raise {A} e.

End Py.
Export Py.

(** ** The boundary of the script *)

(** How a launched process ends, as seen by [subprocess.run]: it ran and
    exited with a return code, or launching or waiting raised. *)
Inductive outcome : Type :=
  | Exited (returncode : Z)
  | Failed (e : exn).

(** The part of the Python runtime and of the machine that the script relies
    on.  [os_run args shell] launches a process in a state of the machine and
    waits for it; [str_other] is [str] on values that are not [str] already;
    [str_exception] is [str] on an exception object; [print_error line] is
    the exception [print(line)] raises on the standard output of the process,
    if it raises: [UnicodeEncodeError] when the stream cannot encode the line
    (a lone surrogate on a UTF-8 stream), [OSError] or [ValueError] when the
    stream is broken or closed. *)
Class Runtime : Type := {
  os_state : Type;
  os_run : pyval -> bool -> os_state -> outcome * os_state;
  str_other : pyval -> string;
  str_exception : exn -> string;
  print_error : string -> option exn
}.

(** One call of [subprocess.run], with its keyword arguments. *)
Record invocation : Type := Invocation {
  inv_args : pyval;
  inv_check : bool;
  inv_shell : bool
}.

(** Flask's [Response] objects, as far as the script builds them. *)
Inductive resp_body : Type :=
  | EmptyBody
  | JsonBody (doc : pyval).

Record http_response : Type := HttpResponse {
  status : Z;
  body : resp_body
}.

(** What a view may return: a response object, or a pair of a response
    object and a status code. *)
Inductive view_rv : Type :=
  | RvResponse (r : http_response)
  | RvTuple (r : http_response) (code : Z).

(** [Response(status=...)] *)
Definition Response (st : Z) : http_response :=
  {| status := st; body := EmptyBody |}.

(** [jsonify(doc)] *)
Definition jsonify (doc : pyval) : http_response :=
  {| status := 200; body := JsonBody doc |}.

(** The response Flask sends for a value returned by a view: the status of
    a pair overrides the one of the object. *)
Definition make_response (rv : view_rv) : http_response :=
  match rv with
  | RvResponse r => r
  | RvTuple r code => {| status := code; body := body r |}
  end.

(** The incoming request, as far as the view reads it: [get_json()] returns
    the parsed body or raises. *)
Inductive Request : Type :=
  | JsonRequest (data : pyval)
  | BadRequest (e : exn).

(** The launch of the development server. *)
Record app_run : Type := AppRun {
  host : string;
  port : Z
}.

(** What the interpreter gives a module when it executes it. *)
Record process : Type := Process {
  dunder_name : string;
  argv : list string;
  environ : gmap string string
}.

(** ** The monad of the handler *)

Section Handler.
Context `{RT : Runtime}.

Record world : Type := World {
  w_os : os_state;
  w_calls : list invocation;
  w_stdout : list string
}.

Definition M (A : Type) : Type := world -> result A * world.

Definition ret {A} (a : A) : M A := fun w => (Return a, w).

Definition raise {A} (e : exn) : M A := fun w => (Raise e, w).

Definition bind {A B} (m : M A) (k : A -> M B) : M B :=
  fun w =>
    match m w with
    | (Return a, w') => k a w'
    | (Raise e, w') => (Raise e, w')
    end.

(** [try: body  except Exception as e: handler] *)
Definition try_except {A} (body : M A) (handler : exn -> M A) : M A :=
  fun w =>
    match body w with
    | (Return a, w') => (Return a, w')
    | (Raise e, w') =>
        if is_Exception e then handler e w' else (Raise e, w')
    end.

End Handler.

Arguments world {RT}.
Arguments World {RT} _ _ _.
Arguments M {RT} A.

Declare Scope py_scope.
Delimit Scope py_scope with py.
Notation "x <- m ;; k" := (bind m (fun x => k))
  (at level 100, m at next level, right associativity) : py_scope.
Notation "m ;;; k" := (bind m (fun _ => k))
  (at level 100, right associativity) : py_scope.

Section Script.
Context `{RT : Runtime}.
Local Open Scope py_scope.

(** [print(s)]: a line on the standard output, or the exception of the
    stream. *)
Definition print (s : string) : M unit :=
  fun w =>
    match print_error s with
    | Some e => (Raise e, w)
    | None =>
        (Return tt,
         {| w_os := w_os w; w_calls := w_calls w; w_stdout := w_stdout w ++ [s] |})
    end.

(** [request.get_json()] *)
Definition get_json (request : Request) : M pyval :=
  match request with
  | JsonRequest data => ret data
  | BadRequest e => raise e
  end.

(** [obj[key]] for a [str] key *)
Definition getitem (obj : pyval) (key : string) : M pyval :=
  match obj with
  | PDict m =>
      match m !! key with
      | Some v => ret v
      | None => raise (KeyError key)
      end
  | _ => raise (TypeError obj)
  end.

(** A replacement field [{v}] of an f-string. *)
Definition py_format (v : pyval) : string :=
  match v with
  | PStr s => s
  | _ => str_other v
  end.

(** What [subprocess.run] does with the outcome of the process: under
    [check=True] a non-zero return code raises [CalledProcessError]; an
    exception of the launch is passed on. *)
Definition check_outcome (args : pyval) (check : bool) (out : outcome) : result Z :=
  match out with
  | Exited rc =>
      if check && negb (rc =? 0)%Z
      then Raise (CalledProcessError rc args)
      else Return rc
  | Failed e => Raise e
  end.

(** [subprocess.run(args, check=check, shell=shell)]; the completed
    process is given by its return code. *)
Definition subprocess_run (args : pyval) (check shell : bool) : M Z :=
  fun w =>
    let '(out, s') := os_run args shell (w_os w) in
    (check_outcome args check out,
     {| w_os := s';
        w_calls := w_calls w ++ [Invocation args check shell];
        w_stdout := w_stdout w |}).

(** The body of the [if]: [Some rv] when it executes [return rv], [None]
    when control reaches its end. *)
Definition on_main (data : pyval) : M (option view_rv) :=
  print "fetching new changes" ;;;
  subprocess_run (PList [PStr "git"; PStr "fetch"; PStr "--all"]) true false ;;;
  after <- getitem data "after" ;;
  print ("checking out new changes " +:+ py_format after) ;;;
  after <- getitem data "after" ;;
  subprocess_run (PList [PStr "git"; PStr "checkout"; after]) true false ;;;
  try_except
    (after <- getitem data "after" ;;
     subprocess_run
       (PStr ("/home/ubuntu/zig-linux-x86_64-0.13.0/zig build -Doptimize=ReleaseSafe benchmark -- gossip --telemetry="
              +:+ py_format after))
       true true ;;;
     ret None)
    (fun e =>
       print ("errored: " +:+ str_exception e) ;;;
       ret (Some (RvTuple
                    (jsonify (PDict (<["message" := PStr "An error occurred"]>
                                      (<["error" := PStr (str_exception e)]> ∅))))
                    500))).

(** The view bound to [POST /trigger-benchmark]. *)
Definition response (request : Request) : M view_rv :=
  data <- get_json request ;;
  ref <- getitem data "ref" ;;
  early <- (if eq_str ref "refs/heads/main" then on_main data else ret None) ;;
  match early with
  | Some rv => ret rv
  | None => ret (RvResponse (Response 200))
  end.

End Script.

(** [app.run(host=..., port=...)] of Flask, as far as the address goes: the
    call is ignored, and no server is started, when the environment has
    [FLASK_RUN_FROM_CLI=true]; otherwise the development server is asked to
    listen on the host and port given. *)
Definition flask_run (env : gmap string string) (h : string) (p : Z) :
    option app_run :=
  match env !! "FLASK_RUN_FROM_CLI" with
  | Some v => if String.eqb v "true" then None else Some {| host := h; port := p |}
  | None => Some {| host := h; port := p |}
  end.

(** The module's last statement: [app.run] is called when the file is the
    main program, and not otherwise.  The result is the address the process
    asks its server to listen on, if it starts one. *)
Definition main (p : process) : option app_run :=
  if String.eqb (dunder_name p) "__main__"
  then flask_run (environ p) "0.0.0.0" 80
  else None.

(** ** Names for what the handler launches and answers

    The three calls of [subprocess.run] in [on_main], and the two values the
    view returns, under names of their own for use in the statements. *)

Definition git_fetch : invocation :=
  Invocation (PList [PStr "git"; PStr "fetch"; PStr "--all"]) true false.

Definition git_checkout (after : pyval) : invocation :=
  Invocation (PList [PStr "git"; PStr "checkout"; after]) true false.

Definition zig_build `{RT : Runtime} (after : pyval) : invocation :=
  Invocation
    (PStr ("/home/ubuntu/zig-linux-x86_64-0.13.0/zig build -Doptimize=ReleaseSafe benchmark -- gossip --telemetry="
           +:+ py_format after))
    true true.

Definition ok_200 : view_rv := RvResponse (Response 200).

Definition error_500 `{RT : Runtime} (e : exn) : view_rv :=
  RvTuple
    (jsonify (PDict (<["message" := PStr "An error occurred"]>
                      (<["error" := PStr (str_exception e)]> ∅))))
    500.

(** The three lines the handler prints. *)
Definition line_fetching : string := "fetching new changes".

Definition line_checkout `{RT : Runtime} (after : pyval) : string :=
  "checking out new changes " +:+ py_format after.

Definition line_errored `{RT : Runtime} (e : exn) : string :=
  "errored: " +:+ str_exception e.

(** The calls of [subprocess.run] made between two worlds. *)
Definition new_calls `{RT : Runtime} (w w' : world) : list invocation :=
  drop (length (w_calls w)) (w_calls w').

(** A boundary whose processes end the same way whatever happened before:
    the outcome of a launch is a function of the command alone. *)
Definition stateless_boundary `{RT : Runtime} : Prop :=
  forall args shell s s', (os_run args shell s).1 = (os_run args shell s').1.

(** A computation whose result and whose calls do not depend on the world
    it starts in. *)
Definition oblivious `{RT : Runtime} {A} (m : M A) : Prop :=
  exists r cs, forall w, (m w).1 = r /\ w_calls (m w).2 = w_calls w ++ cs.

(** The ways through [response]: which request, which outcomes of the
    launches and which outcomes of the prints lead to which result and which
    world.  [run_path w request r w'] lists them; [response_run_path] below
    shows that [response] always takes one of them. *)
Inductive run_path `{RT : Runtime} (w : world) :
    Request -> result view_rv -> world -> Prop :=
  | via_unreadable e :
      run_path w (BadRequest e) (Raise e) w
  | via_not_dict data :
      (forall m, data <> PDict m) ->
      run_path w (JsonRequest data) (Raise (TypeError data)) w
  | via_no_ref m :
      m !! "ref" = None ->
      run_path w (JsonRequest (PDict m)) (Raise (KeyError "ref")) w
  | via_other_ref m ref :
      m !! "ref" = Some ref ->
      ref <> PStr "refs/heads/main" ->
      run_path w (JsonRequest (PDict m)) (Return ok_200) w
  | via_first_print_raises m e :
      m !! "ref" = Some (PStr "refs/heads/main") ->
      print_error line_fetching = Some e ->
      run_path w (JsonRequest (PDict m)) (Raise e) w
  | via_fetch_raises m out s1 e :
      m !! "ref" = Some (PStr "refs/heads/main") ->
      print_error line_fetching = None ->
      os_run (inv_args git_fetch) false (w_os w) = (out, s1) ->
      check_outcome (inv_args git_fetch) true out = Raise e ->
      run_path w (JsonRequest (PDict m)) (Raise e)
        (World s1 (w_calls w ++ [git_fetch])
           (w_stdout w ++ ["fetching new changes"]))
  | via_after_missing m s1 :
      m !! "ref" = Some (PStr "refs/heads/main") ->
      print_error line_fetching = None ->
      os_run (inv_args git_fetch) false (w_os w) = (Exited 0, s1) ->
      m !! "after" = None ->
      run_path w (JsonRequest (PDict m)) (Raise (KeyError "after"))
        (World s1 (w_calls w ++ [git_fetch])
           (w_stdout w ++ ["fetching new changes"]))
  | via_second_print_raises m after s1 e :
      m !! "ref" = Some (PStr "refs/heads/main") ->
      m !! "after" = Some after ->
      print_error line_fetching = None ->
      os_run (inv_args git_fetch) false (w_os w) = (Exited 0, s1) ->
      print_error (line_checkout after) = Some e ->
      run_path w (JsonRequest (PDict m)) (Raise e)
        (World s1 (w_calls w ++ [git_fetch])
           (w_stdout w ++ ["fetching new changes"]))
  | via_checkout_raises m after s1 out s2 e :
      m !! "ref" = Some (PStr "refs/heads/main") ->
      m !! "after" = Some after ->
      print_error line_fetching = None ->
      os_run (inv_args git_fetch) false (w_os w) = (Exited 0, s1) ->
      print_error (line_checkout after) = None ->
      os_run (inv_args (git_checkout after)) false s1 = (out, s2) ->
      check_outcome (inv_args (git_checkout after)) true out = Raise e ->
      run_path w (JsonRequest (PDict m)) (Raise e)
        (World s2 (w_calls w ++ [git_fetch; git_checkout after])
           (w_stdout w ++ ["fetching new changes";
                           "checking out new changes " +:+ py_format after]))
  | via_build_returns m after s1 s2 s3 :
      m !! "ref" = Some (PStr "refs/heads/main") ->
      m !! "after" = Some after ->
      print_error line_fetching = None ->
      os_run (inv_args git_fetch) false (w_os w) = (Exited 0, s1) ->
      print_error (line_checkout after) = None ->
      os_run (inv_args (git_checkout after)) false s1 = (Exited 0, s2) ->
      os_run (inv_args (zig_build after)) true s2 = (Exited 0, s3) ->
      run_path w (JsonRequest (PDict m)) (Return ok_200)
        (World s3 (w_calls w ++ [git_fetch; git_checkout after; zig_build after])
           (w_stdout w ++ ["fetching new changes";
                           "checking out new changes " +:+ py_format after]))
  | via_build_caught m after s1 s2 out s3 e :
      m !! "ref" = Some (PStr "refs/heads/main") ->
      m !! "after" = Some after ->
      print_error line_fetching = None ->
      os_run (inv_args git_fetch) false (w_os w) = (Exited 0, s1) ->
      print_error (line_checkout after) = None ->
      os_run (inv_args (git_checkout after)) false s1 = (Exited 0, s2) ->
      os_run (inv_args (zig_build after)) true s2 = (out, s3) ->
      check_outcome (inv_args (zig_build after)) true out = Raise e ->
      is_Exception e = true ->
      print_error (line_errored e) = None ->
      run_path w (JsonRequest (PDict m)) (Return (error_500 e))
        (World s3 (w_calls w ++ [git_fetch; git_checkout after; zig_build after])
           (w_stdout w ++ ["fetching new changes";
                           "checking out new changes " +:+ py_format after;
                           "errored: " +:+ str_exception e]))
  | via_third_print_raises m after s1 s2 out s3 e e' :
      m !! "ref" = Some (PStr "refs/heads/main") ->
      m !! "after" = Some after ->
      print_error line_fetching = None ->
      os_run (inv_args git_fetch) false (w_os w) = (Exited 0, s1) ->
      print_error (line_checkout after) = None ->
      os_run (inv_args (git_checkout after)) false s1 = (Exited 0, s2) ->
      os_run (inv_args (zig_build after)) true s2 = (out, s3) ->
      check_outcome (inv_args (zig_build after)) true out = Raise e ->
      is_Exception e = true ->
      print_error (line_errored e) = Some e' ->
      run_path w (JsonRequest (PDict m)) (Raise e')
        (World s3 (w_calls w ++ [git_fetch; git_checkout after; zig_build after])
           (w_stdout w ++ ["fetching new changes";
                           "checking out new changes " +:+ py_format after]))
  | via_build_passes m after s1 s2 out s3 e :
      m !! "ref" = Some (PStr "refs/heads/main") ->
      m !! "after" = Some after ->
      print_error line_fetching = None ->
      os_run (inv_args git_fetch) false (w_os w) = (Exited 0, s1) ->
      print_error (line_checkout after) = None ->
      os_run (inv_args (git_checkout after)) false s1 = (Exited 0, s2) ->
      os_run (inv_args (zig_build after)) true s2 = (out, s3) ->
      check_outcome (inv_args (zig_build after)) true out = Raise e ->
      is_Exception e = false ->
      run_path w (JsonRequest (PDict m)) (Raise e)
        (World s3 (w_calls w ++ [git_fetch; git_checkout after; zig_build after])
           (w_stdout w ++ ["fetching new changes";
                           "checking out new changes " +:+ py_format after])).

(** A push to the main branch: a dict whose [ref] is the string
    [refs/heads/main]. *)
Definition main_push (request : Request) : Prop :=
  exists m : gmap string pyval,
    request = JsonRequest (PDict m) /\
    m !! "ref" = Some (PStr "refs/heads/main").

(** ** Test doubles for the boundary *)

Module Mock.

Definition describe (e : exn) : string :=
  match e with
  | KeyError k => "'" +:+ k +:+ "'"
  | TypeError _ => "object is not subscriptable"
  | CalledProcessError _ _ => "Command returned non-zero exit status"
  | LibraryError _ detail => detail
  | KeyboardInterrupt => "KeyboardInterrupt"
  end.

(** A scripted boundary: the state is the list of outcomes still to be
    played, one per launch; when it is exhausted, processes exit with 0. *)
Definition scripted : Runtime :=
  {| os_state := list outcome;
     os_run := fun _ _ s =>
                 match s with
                 | [] => (Exited 0, [])
                 | out :: s' => (out, s')
                 end;
     str_other := fun _ => "<object>";
     str_exception := describe;
     print_error := fun _ => None |}.

(** A boundary without memory: [f] gives the outcome of each command. *)
Definition fixed (f : pyval -> bool -> outcome) : Runtime :=
  {| os_state := unit;
     os_run := fun args shell s => (f args shell, s);
     str_other := fun _ => "<object>";
     str_exception := describe;
     print_error := fun _ => None |}.

(** Every build exits with 1, every other command with 0. *)
Definition build_breaks (args : pyval) (shell : bool) : outcome :=
  if shell then Exited 1 else Exited 0.

Definition start (script : list outcome) : world (RT := scripted) :=
  World (RT := scripted) script [] [].

Definition push (ref : string) (after : string) : Request :=
  JsonRequest (PDict (<["ref" := PStr ref]> (<["after" := PStr after]> ∅))).

Definition push_without_after (ref : string) : Request :=
  JsonRequest (PDict (<["ref" := PStr ref]> ∅)).

(** The scripted boundary with a standard output of its own: [err] tells
    which lines it refuses. *)
Definition scripted_with (err : string -> option exn) : Runtime :=
  {| os_state := list outcome;
     os_run := fun _ _ s =>
                 match s with
                 | [] => (Exited 0, [])
                 | out :: s' => (out, s')
                 end;
     str_other := fun _ => "<object>";
     str_exception := describe;
     print_error := err |}.

(** The three bytes [ED A0 80]: the code point U+D800, a lone surrogate, which
    [json.loads] yields for the JSON string with the escape [\ud800]. *)
Definition lone_surrogate : string :=
  String (Ascii.ascii_of_nat 237)
    (String (Ascii.ascii_of_nat 160)
       (String (Ascii.ascii_of_nat 128) EmptyString)).

(** Whether the bytes hold a surrogate: [ED] followed by [A0] or more. *)
Fixpoint has_surrogate (s : string) : bool :=
  match s with
  | EmptyString => false
  | String c t =>
      match t with
      | EmptyString => false
      | String d _ =>
          (Nat.eqb (Ascii.nat_of_ascii c) 237 && Nat.leb 160 (Ascii.nat_of_ascii d))
          || has_surrogate t
      end
  end.

(** A UTF-8 standard output: a line with a surrogate cannot be encoded. *)
Definition utf8_stdout (line : string) : option exn :=
  if has_surrogate line
  then Some (LibraryError "UnicodeEncodeError" "surrogates not allowed")
  else None.

(** A standard output that breaks before the first line that starts with
    [start] is written. *)
Definition broken_at (start : string) (line : string) : option exn :=
  if String.prefix start line
  then Some (LibraryError "BrokenPipeError" "Broken pipe")
  else None.

End Mock.

(** ** Facts about the primitives *)

Section Steps.
Context `{RT : Runtime}.
Local Open Scope py_scope.

(** Under [check=True] the call returns exactly when the process exits
    with 0. *)
Lemma check_outcome_return args out rc :
  check_outcome args true out = Return rc <-> out = Exited 0 /\ rc = 0%Z.
Proof.
  destruct out as [n|e]; cbn.
  - destruct (Z.eqb_spec n 0); cbn; split.
    + intros [= <-]. now subst.
    + intros [[= ->] ->]. reflexivity.
    + discriminate.
    + intros [[= ->] _]. contradiction.
  - split; [discriminate | intros [[=] _]].
Qed.

(** Under [check=True] the call raises on a non-zero exit and on an
    exception of the launch, and on nothing else. *)
Lemma check_outcome_raise args out e :
  check_outcome args true out = Raise e <->
  (exists rc, out = Exited rc /\ rc <> 0%Z /\ e = CalledProcessError rc args)
  \/ out = Failed e.
Proof.
  destruct out as [n|e']; cbn.
  - destruct (Z.eqb_spec n 0); cbn; split.
    + discriminate.
    + intros [(rc & [= ->] & Hrc & _) | [=]]. contradiction.
    + intros [= <-]. left. now exists n.
    + intros [(rc & [= ->] & _ & ->) | [=]]. reflexivity.
  - split.
    + intros [= ->]. now right.
    + intros [(rc & [=] & _) | [= ->]]. reflexivity.
Qed.

Lemma eq_str_true v s : eq_str v s = true <-> v = PStr s.
Proof.
  destruct v; cbn; try (split; [discriminate | intros [=]]).
  rewrite String.eqb_eq. split; [now intros -> | now intros [= ->]].
Qed.

Lemma eq_str_false v s : eq_str v s = false <-> v <> PStr s.
Proof.
  rewrite <- eq_str_true. destruct (eq_str v s); split; congruence.
Qed.

End Steps.

(** ** The paths through the handler

    One equation per path of [response] on a push to the main branch: the
    value or exception of the view and the whole world it leaves. *)

Ltac run_unfold :=
  unfold response, on_main, try_except, bind, get_json, getitem,
    subprocess_run, print, ret, raise; cbn.

Ltac run_step :=
  match goal with
  | H : ?m !! ?k = _ |- context [?m !! ?k] => rewrite H; cbn
  | H : os_run ?a ?sh ?s = _ |- context [os_run ?a ?sh ?s] => rewrite H; cbn
  | H : check_outcome ?a ?c ?o = _ |- context [check_outcome ?a ?c ?o] =>
      rewrite H; cbn
  | H : is_Exception ?e = _ |- context [is_Exception ?e] => rewrite H; cbn
  | H : print_error ?s = _ |- context [print_error ?s] => rewrite H; cbn
  end.

Ltac run := run_unfold; repeat run_step; rewrite <- ?app_assoc; cbn.

Ltac lines_in H :=
  unfold line_fetching, line_checkout, line_errored in H; cbn in H.

Section Paths.
Context `{RT : Runtime}.
Variable m : gmap string pyval.
Hypothesis Href : m !! "ref" = Some (PStr "refs/heads/main").

Lemma path_first_print_raises w e :
  print_error line_fetching = Some e ->
  response (JsonRequest (PDict m)) w = (Raise e, w).
Proof using Href. intros P1. lines_in P1. run. reflexivity. Qed.

Hypothesis Hsaid1 : print_error line_fetching = None.

Lemma path_fetch_raises w out s1 e :
  os_run (inv_args git_fetch) false (w_os w) = (out, s1) ->
  check_outcome (inv_args git_fetch) true out = Raise e ->
  response (JsonRequest (PDict m)) w =
    (Raise e,
     World s1 (w_calls w ++ [git_fetch]) (w_stdout w ++ ["fetching new changes"])).
Proof using Href Hsaid1.
  intros Hf Ef. pose proof Hsaid1 as P1. lines_in P1.
  cbn in Hf, Ef. run. reflexivity.
Qed.

Lemma path_after_missing w s1 :
  m !! "after" = None ->
  os_run (inv_args git_fetch) false (w_os w) = (Exited 0, s1) ->
  response (JsonRequest (PDict m)) w =
    (Raise (KeyError "after"),
     World s1 (w_calls w ++ [git_fetch]) (w_stdout w ++ ["fetching new changes"])).
Proof using Href Hsaid1.
  intros Ha Hf. pose proof Hsaid1 as P1. lines_in P1.
  cbn in Hf. run. reflexivity.
Qed.

Variable after : pyval.
Hypothesis Hafter : m !! "after" = Some after.

Lemma path_second_print_raises w s1 e :
  os_run (inv_args git_fetch) false (w_os w) = (Exited 0, s1) ->
  print_error (line_checkout after) = Some e ->
  response (JsonRequest (PDict m)) w =
    (Raise e,
     World s1 (w_calls w ++ [git_fetch]) (w_stdout w ++ ["fetching new changes"])).
Proof using Href Hsaid1 Hafter.
  intros Hf P2. pose proof Hsaid1 as P1. lines_in P1. lines_in P2.
  cbn in Hf. run. reflexivity.
Qed.

Hypothesis Hsaid2 : print_error (line_checkout after) = None.

Lemma path_checkout_raises w s1 out s2 e :
  os_run (inv_args git_fetch) false (w_os w) = (Exited 0, s1) ->
  os_run (inv_args (git_checkout after)) false s1 = (out, s2) ->
  check_outcome (inv_args (git_checkout after)) true out = Raise e ->
  response (JsonRequest (PDict m)) w =
    (Raise e,
     World s2 (w_calls w ++ [git_fetch; git_checkout after])
       (w_stdout w ++ ["fetching new changes";
                       "checking out new changes " +:+ py_format after])).
Proof using Href Hsaid1 Hafter Hsaid2.
  intros Hf Hc Ec. pose proof Hsaid1 as P1. pose proof Hsaid2 as P2.
  lines_in P1. lines_in P2. cbn in Hf, Hc, Ec. run. reflexivity.
Qed.

Lemma path_build_returns w s1 s2 s3 :
  os_run (inv_args git_fetch) false (w_os w) = (Exited 0, s1) ->
  os_run (inv_args (git_checkout after)) false s1 = (Exited 0, s2) ->
  os_run (inv_args (zig_build after)) true s2 = (Exited 0, s3) ->
  response (JsonRequest (PDict m)) w =
    (Return ok_200,
     World s3 (w_calls w ++ [git_fetch; git_checkout after; zig_build after])
       (w_stdout w ++ ["fetching new changes";
                       "checking out new changes " +:+ py_format after])).
Proof using Href Hsaid1 Hafter Hsaid2.
  intros Hf Hc Hb. pose proof Hsaid1 as P1. pose proof Hsaid2 as P2.
  lines_in P1. lines_in P2. cbn in Hf, Hc, Hb. run. reflexivity.
Qed.

Lemma path_build_caught w s1 s2 out s3 e :
  os_run (inv_args git_fetch) false (w_os w) = (Exited 0, s1) ->
  os_run (inv_args (git_checkout after)) false s1 = (Exited 0, s2) ->
  os_run (inv_args (zig_build after)) true s2 = (out, s3) ->
  check_outcome (inv_args (zig_build after)) true out = Raise e ->
  is_Exception e = true ->
  print_error (line_errored e) = None ->
  response (JsonRequest (PDict m)) w =
    (Return (error_500 e),
     World s3 (w_calls w ++ [git_fetch; git_checkout after; zig_build after])
       (w_stdout w ++ ["fetching new changes";
                       "checking out new changes " +:+ py_format after;
                       "errored: " +:+ str_exception e])).
Proof using Href Hsaid1 Hafter Hsaid2.
  intros Hf Hc Hb Eb He P3. pose proof Hsaid1 as P1. pose proof Hsaid2 as P2.
  lines_in P1. lines_in P2. lines_in P3. cbn in Hf, Hc, Hb, Eb. run. reflexivity.
Qed.

Lemma path_third_print_raises w s1 s2 out s3 e e' :
  os_run (inv_args git_fetch) false (w_os w) = (Exited 0, s1) ->
  os_run (inv_args (git_checkout after)) false s1 = (Exited 0, s2) ->
  os_run (inv_args (zig_build after)) true s2 = (out, s3) ->
  check_outcome (inv_args (zig_build after)) true out = Raise e ->
  is_Exception e = true ->
  print_error (line_errored e) = Some e' ->
  response (JsonRequest (PDict m)) w =
    (Raise e',
     World s3 (w_calls w ++ [git_fetch; git_checkout after; zig_build after])
       (w_stdout w ++ ["fetching new changes";
                       "checking out new changes " +:+ py_format after])).
Proof using Href Hsaid1 Hafter Hsaid2.
  intros Hf Hc Hb Eb He P3. pose proof Hsaid1 as P1. pose proof Hsaid2 as P2.
  lines_in P1. lines_in P2. lines_in P3. cbn in Hf, Hc, Hb, Eb. run. reflexivity.
Qed.

Lemma path_build_passes w s1 s2 out s3 e :
  os_run (inv_args git_fetch) false (w_os w) = (Exited 0, s1) ->
  os_run (inv_args (git_checkout after)) false s1 = (Exited 0, s2) ->
  os_run (inv_args (zig_build after)) true s2 = (out, s3) ->
  check_outcome (inv_args (zig_build after)) true out = Raise e ->
  is_Exception e = false ->
  response (JsonRequest (PDict m)) w =
    (Raise e,
     World s3 (w_calls w ++ [git_fetch; git_checkout after; zig_build after])
       (w_stdout w ++ ["fetching new changes";
                       "checking out new changes " +:+ py_format after])).
Proof using Href Hsaid1 Hafter Hsaid2.
  intros Hf Hc Hb Eb He. pose proof Hsaid1 as P1. pose proof Hsaid2 as P2.
  lines_in P1. lines_in P2. cbn in Hf, Hc, Hb, Eb. run. reflexivity.
Qed.

End Paths.

(** ** The handler keeps no state of its own

    Over a stateless boundary every primitive is [oblivious], and [bind] and
    [try_except] preserve that; so the handler is. *)

Section Oblivious.
Context `{RT : Runtime}.
Local Open Scope py_scope.

Lemma oblivious_ret {A} (a : A) : oblivious (ret a).
Proof. exists (Return a), []. intros w. cbn. now rewrite app_nil_r. Qed.

Lemma oblivious_raise {A} (e : exn) : oblivious (raise (A := A) e).
Proof. exists (Raise e), []. intros w. cbn. now rewrite app_nil_r. Qed.

Lemma oblivious_print s : oblivious (print s).
Proof.
  unfold print. destruct (print_error s) as [e|].
  - exists (Raise e), []. intros w. cbn. now rewrite app_nil_r.
  - exists (Return tt), []. intros w. cbn. now rewrite app_nil_r.
Qed.

Lemma oblivious_get_json request : oblivious (get_json request).
Proof. destruct request; [apply oblivious_ret | apply oblivious_raise]. Qed.

Lemma oblivious_getitem obj key : oblivious (getitem obj key).
Proof.
  destruct obj; try apply oblivious_raise.
  cbn. destruct (m !! key); [apply oblivious_ret | apply oblivious_raise].
Qed.

Lemma oblivious_bind {A B} (m : M A) (k : A -> M B) :
  oblivious m -> (forall a, oblivious (k a)) -> oblivious (bind m k).
Proof.
  intros (r & cs & Hm) Hk. destruct r as [a|e].
  - destruct (Hk a) as (r' & cs' & Hka).
    exists r', (cs ++ cs'). intros w.
    destruct (Hm w) as [Er Ec]. unfold bind.
    destruct (m w) as [r0 w0]. cbn in Er, Ec. subst r0.
    destruct (Hka w0) as [Er' Ec'].
    now rewrite Er', Ec', Ec, app_assoc.
  - exists (Raise e), cs. intros w.
    destruct (Hm w) as [Er Ec]. unfold bind.
    destruct (m w) as [r0 w0]. cbn in Er, Ec. now subst r0.
Qed.

Lemma oblivious_try_except {A} (body : M A) (handler : exn -> M A) :
  oblivious body -> (forall e, oblivious (handler e)) ->
  oblivious (try_except body handler).
Proof.
  intros (r & cs & Hm) Hh. destruct r as [a|e].
  - exists (Return a), cs. intros w.
    destruct (Hm w) as [Er Ec]. unfold try_except.
    destruct (body w) as [r0 w0]. cbn in Er, Ec. now subst r0.
  - destruct (is_Exception e) eqn:He.
    + destruct (Hh e) as (r' & cs' & Hhe).
      exists r', (cs ++ cs'). intros w.
      destruct (Hm w) as [Er Ec]. unfold try_except.
      destruct (body w) as [r0 w0]. cbn in Er, Ec. subst r0. rewrite He.
      destruct (Hhe w0) as [Er' Ec'].
      now rewrite Er', Ec', Ec, app_assoc.
    + exists (Raise e), cs. intros w.
      destruct (Hm w) as [Er Ec]. unfold try_except.
      destruct (body w) as [r0 w0]. cbn in Er, Ec. subst r0.
      now rewrite He.
Qed.

Hypothesis Hmock : stateless_boundary.

Lemma oblivious_subprocess_run (w0 : world) args check shell :
  oblivious (subprocess_run args check shell).
Proof using Hmock.
  exists (check_outcome args check (os_run args shell (w_os w0)).1),
         [Invocation args check shell].
  intros w. unfold subprocess_run.
  rewrite (Hmock args shell (w_os w0) (w_os w)).
  now destruct (os_run args shell (w_os w)).
Qed.

Lemma oblivious_on_main (w0 : world) data : oblivious (on_main data).
Proof using Hmock.
  unfold on_main.
  repeat first
    [ apply oblivious_bind; [ | intros ? ]
    | apply oblivious_try_except; [ | intros ? ]
    | apply oblivious_print
    | apply oblivious_getitem
    | apply (oblivious_subprocess_run w0)
    | apply oblivious_ret ].
Qed.

Lemma oblivious_response (w0 : world) request : oblivious (response request).
Proof using Hmock.
  unfold response.
  apply oblivious_bind; [apply oblivious_get_json | intros data].
  apply oblivious_bind; [apply oblivious_getitem | intros ref].
  apply oblivious_bind.
  - destruct (eq_str ref "refs/heads/main");
      [apply (oblivious_on_main w0) | apply oblivious_ret].
  - intros [rv|]; apply oblivious_ret.
Qed.

Lemma new_calls_app (w w' : world) cs :
  w_calls w' = w_calls w ++ cs -> new_calls w w' = cs.
Proof. intros E. unfold new_calls. rewrite E. apply drop_app_length. Qed.

End Oblivious.

(** ** What the view can return *)

Section Returns.
Context `{RT : Runtime}.

Lemma response_returns request w rv w' :
  response request w = (Return rv, w') ->
  rv = ok_200 \/ exists e, rv = error_500 e.
Proof.
  run_unfold. intros H.
  repeat case_match; simplify_eq; eauto.
Qed.

Lemma error_500_sent e :
  make_response (error_500 e) =
    {| status := 500;
       body := JsonBody (PDict (<["message" := PStr "An error occurred"]>
                                 (<["error" := PStr (str_exception e)]> ∅))) |}.
Proof. reflexivity. Qed.

Lemma error_500_keys (detail : pyval) :
  dom (<["message" := PStr "An error occurred"]>
         (<["error" := detail]> (∅ : gmap string pyval)))
  = ({["message"; "error"]} : gset string).
Proof. rewrite !dom_insert_L, dom_empty_L. set_solver. Qed.

End Returns.

(** ** Every run takes one of the listed paths *)

Section Classification.
Context `{RT : Runtime}.

Lemma response_run_path request w :
  run_path w request (response request w).1 (response request w).2.
Proof.
  destruct request as [data|e0]; [ | apply via_unreadable ].
  destruct data as [ | b | n | f | s | l | m ];
    try (apply via_not_dict; discriminate).
  destruct (m !! "ref") as [ref|] eqn:Href.
  2: { replace (response (JsonRequest (PDict m)) w)
         with (Raise (A := view_rv) (KeyError "ref"), w) by (run; reflexivity).
       now apply via_no_ref. }
  destruct (eq_str ref "refs/heads/main") eqn:Eref.
  2: { replace (response (JsonRequest (PDict m)) w) with (Return ok_200, w)
         by (run; now rewrite Eref).
       apply via_other_ref with ref; [ exact Href | now apply eq_str_false ]. }
  apply eq_str_true in Eref. subst ref.
  destruct (print_error line_fetching) as [p1|] eqn:P1.
  { rewrite (path_first_print_raises m Href w p1 P1).
    now apply via_first_print_raises. }
  destruct (os_run (inv_args git_fetch) false (w_os w)) as [o1 s1] eqn:Hf.
  destruct (check_outcome (inv_args git_fetch) true o1) as [rc1|e] eqn:Ef.
  2: { rewrite (path_fetch_raises m Href P1 w o1 s1 e Hf Ef).
       now apply via_fetch_raises with o1. }
  apply check_outcome_return in Ef as [-> _].
  destruct (m !! "after") as [after|] eqn:Hafter.
  2: { rewrite (path_after_missing m Href P1 w s1 Hafter Hf).
       now apply via_after_missing. }
  destruct (print_error (line_checkout after)) as [p2|] eqn:P2.
  { rewrite (path_second_print_raises m Href P1 after Hafter w s1 p2 Hf P2).
    now apply via_second_print_raises with after. }
  destruct (os_run (inv_args (git_checkout after)) false s1) as [o2 s2] eqn:Hc.
  destruct (check_outcome (inv_args (git_checkout after)) true o2) as [rc2|e] eqn:Ec.
  2: { rewrite (path_checkout_raises m Href P1 after Hafter P2 w s1 o2 s2 e Hf Hc Ec).
       now apply via_checkout_raises with s1 o2. }
  apply check_outcome_return in Ec as [-> _].
  destruct (os_run (inv_args (zig_build after)) true s2) as [o3 s3] eqn:Hb.
  destruct (check_outcome (inv_args (zig_build after)) true o3) as [rc3|e] eqn:Eb.
  - apply check_outcome_return in Eb as [-> _].
    rewrite (path_build_returns m Href P1 after Hafter P2 w s1 s2 s3 Hf Hc Hb).
    now apply via_build_returns with s1 s2.
  - destruct (is_Exception e) eqn:He.
    + destruct (print_error (line_errored e)) as [p3|] eqn:P3.
      * rewrite (path_third_print_raises m Href P1 after Hafter P2
                   w s1 s2 o3 s3 e p3 Hf Hc Hb Eb He P3).
        now apply via_third_print_raises with s1 s2 o3 e.
      * rewrite (path_build_caught m Href P1 after Hafter P2
                   w s1 s2 o3 s3 e Hf Hc Hb Eb He P3).
        now apply via_build_caught with s1 s2 o3.
    + rewrite (path_build_passes m Href P1 after Hafter P2
                 w s1 s2 o3 s3 e Hf Hc Hb Eb He).
      now apply via_build_passes with s1 s2 o3.
Qed.

Lemma response_eq_run_path request w r w' :
  response request w = (r, w') -> run_path w request r w'.
Proof.
  intros E. pose proof (response_run_path request w) as H. now rewrite E in H.
Qed.

End Classification.

(** ** Properties of the handler *)




(** C2.  A payload whose [ref] is anything but [refs/heads/main]: the view
    answers 200 with an empty body and the world is left as it was, so
    [subprocess.run] is not called at all. *)
Theorem other_ref_ignored `{RT : Runtime}
    (m : gmap string pyval) (ref : pyval) (w : world) :
  m !! "ref" = Some ref ->
  ref <> PStr "refs/heads/main" ->
  exists rv w',
    response (JsonRequest (PDict m)) w = (Return rv, w') /\
    make_response rv = {| status := 200; body := EmptyBody |} /\
    w_calls w' = w_calls w /\
    w' = w.
Proof.
  intros Href Hne. apply eq_str_false in Hne.
  exists ok_200, w. repeat split.
  run. now rewrite Hne.
Qed.

Lemma other_ref_ignored_witness :
  exists rv w',
    response (RT := Mock.scripted)
      (Mock.push "refs/heads/develop" "abc123") (Mock.start [Exited 1])
      = (Return rv, w') /\
    make_response rv = {| status := 200; body := EmptyBody |} /\
    w_calls w' = [] /\
    w' = Mock.start [Exited 1].
Proof.
  apply (other_ref_ignored (RT := Mock.scripted)
           (<["ref" := PStr "refs/heads/develop"]> (<["after" := PStr "abc123"]> ∅))
           (PStr "refs/heads/develop") (Mock.start [Exited 1])).
  - vm_compute; reflexivity.
  - discriminate.
Defined.

(** C3, as the code has it.  A push to [refs/heads/main] where fetch and
    checkout exit with 0 and the build fails, by a non-zero exit (which
    [check=True] turns into [CalledProcessError]) or by an error raised
    while launching it, and where the handler's three lines are printed
    without error: the view answers 500 with the JSON object whose
    [message] is ["An error occurred"] and whose [error] is [str] of the
    exception the build call raised. *)
Theorem build_failure_reported `{RT : Runtime}
    (m : gmap string pyval) (after : pyval) (w : world) s1 s2 out s3 (e : exn) :
  m !! "ref" = Some (PStr "refs/heads/main") ->
  m !! "after" = Some after ->
  print_error line_fetching = None ->
  print_error (line_checkout after) = None ->
  print_error (line_errored e) = None ->
  os_run (inv_args git_fetch) false (w_os w) = (Exited 0, s1) ->
  os_run (inv_args (git_checkout after)) false s1 = (Exited 0, s2) ->
  os_run (inv_args (zig_build after)) true s2 = (out, s3) ->
  (exists rc, out = Exited rc /\ rc <> 0%Z /\
              e = CalledProcessError rc (inv_args (zig_build after)))
  \/ (out = Failed e /\ is_Exception e = true) ->
  exists rv w',
    response (JsonRequest (PDict m)) w = (Return rv, w') /\
    make_response rv =
      {| status := 500;
         body := JsonBody (PDict (<["message" := PStr "An error occurred"]>
                                   (<["error" := PStr (str_exception e)]> ∅))) |}.
Proof.
  intros Href Hafter P1 P2 P3 Hf Hc Hb Hfail.
  assert (check_outcome (inv_args (zig_build after)) true out = Raise e
          /\ is_Exception e = true) as [Eb He].
  { destruct Hfail as [(rc & -> & Hrc & ->) | [-> He]].
    - split; [ | reflexivity ]. apply check_outcome_raise. left. now exists rc.
    - split; [ | exact He ]. reflexivity. }
  exists (error_500 e). eexists. split.
  - exact (path_build_caught m Href P1 after Hafter P2
             w s1 s2 out s3 e Hf Hc Hb Eb He P3).
  - apply error_500_sent.
Qed.

Lemma build_failure_reported_witness :
  exists rv w',
    response (RT := Mock.scripted)
      (Mock.push "refs/heads/main" "deadbeef")
      (Mock.start [Exited 0; Exited 0; Failed (LibraryError "OSError" "boom")])
      = (Return rv, w') /\
    make_response rv =
      {| status := 500;
         body := JsonBody (PDict (<["message" := PStr "An error occurred"]>
                                   (<["error" := PStr "boom"]> ∅))) |}.
Proof.
  apply (build_failure_reported (RT := Mock.scripted)
           (<["ref" := PStr "refs/heads/main"]> (<["after" := PStr "deadbeef"]> ∅))
           (PStr "deadbeef")
           (Mock.start [Exited 0; Exited 0; Failed (LibraryError "OSError" "boom")])
           [Exited 0; Failed (LibraryError "OSError" "boom")]
           [Failed (LibraryError "OSError" "boom")]
           (Failed (LibraryError "OSError" "boom")) []
           (LibraryError "OSError" "boom")).
  - vm_compute; reflexivity.
  - vm_compute; reflexivity.
  - reflexivity.
  - reflexivity.
  - reflexivity.
  - reflexivity.
  - reflexivity.
  - reflexivity.
  - right. split; reflexivity.
Defined.

(** C3, as stated, fails when the line of the [except] block cannot be
    printed.  The push is to [refs/heads/main], fetch and checkout exit with
    0 and the build exits with 1; the standard output breaks before
    ["errored: ..."] is written.  The [print] of line 22 raises inside the
    [except] block, so the view raises that exception after the three calls
    and answers no 500. *)
Lemma build_failure_print_raises :
  let RT := Mock.scripted_with (Mock.broken_at "errored") in
  let w := World (RT := RT) [Exited 0; Exited 0; Exited 1] [] [] in
  os_run (Runtime := RT) (inv_args git_fetch) false [Exited 0; Exited 0; Exited 1]
    = (Exited 0, [Exited 0; Exited 1])
  /\
  os_run (Runtime := RT) (inv_args (git_checkout (PStr "deadbeef"))) false
    [Exited 0; Exited 1] = (Exited 0, [Exited 1])
  /\
  os_run (Runtime := RT) (inv_args (zig_build (RT := RT) (PStr "deadbeef"))) true
    [Exited 1] = (Exited 1, [])
  /\
  response (RT := RT) (Mock.push "refs/heads/main" "deadbeef") w
    = (Raise (LibraryError "BrokenPipeError" "Broken pipe"),
       World (RT := RT) []
         [git_fetch; git_checkout (PStr "deadbeef"); zig_build (RT := RT) (PStr "deadbeef")]
         ["fetching new changes"; "checking out new changes deadbeef"])
  /\
  ~ (exists rv w',
       response (RT := RT) (Mock.push "refs/heads/main" "deadbeef") w
       = (Return rv, w')).
Proof.
  intros RT w.
  assert (E : response (RT := RT) (Mock.push "refs/heads/main" "deadbeef") w
              = (Raise (LibraryError "BrokenPipeError" "Broken pipe"),
                 World (RT := RT) []
                   [git_fetch; git_checkout (PStr "deadbeef");
                    zig_build (RT := RT) (PStr "deadbeef")]
                   ["fetching new changes"; "checking out new changes deadbeef"]))
    by (vm_compute; reflexivity).
  repeat split; try reflexivity; try exact E.
  intros (rv & w' & E'). rewrite E in E'. discriminate.
Qed.

(** C4, as the code has it.  Of the three steps only the build is guarded.
    On a push to [refs/heads/main], each step being reached once the lines
    before it are printed: an exception raised by the fetch call leaves the
    view as it is, after that one call; so does an exception raised by the
    checkout call, after fetch and checkout; an error raised by the build
    call is caught, and it is answered with the 500 response when the line
    of the [except] block is printed; when that [print] raises, its
    exception leaves the view instead.  In the first two cases the view
    returns no value, hence no JSON error body. *)
Theorem only_build_is_guarded `{RT : Runtime}
    (m : gmap string pyval) (after : pyval) (w : world) :
  m !! "ref" = Some (PStr "refs/heads/main") ->
  m !! "after" = Some after ->
  print_error line_fetching = None ->
  (forall out s1 e,
     os_run (inv_args git_fetch) false (w_os w) = (out, s1) ->
     check_outcome (inv_args git_fetch) true out = Raise e ->
     exists w',
       response (JsonRequest (PDict m)) w = (Raise e, w') /\
       w_calls w' = w_calls w ++ [git_fetch])
  /\
  (forall s1 out s2 e,
     print_error (line_checkout after) = None ->
     os_run (inv_args git_fetch) false (w_os w) = (Exited 0, s1) ->
     os_run (inv_args (git_checkout after)) false s1 = (out, s2) ->
     check_outcome (inv_args (git_checkout after)) true out = Raise e ->
     exists w',
       response (JsonRequest (PDict m)) w = (Raise e, w') /\
       w_calls w' = w_calls w ++ [git_fetch; git_checkout after])
  /\
  (forall s1 s2 out s3 e,
     print_error (line_checkout after) = None ->
     os_run (inv_args git_fetch) false (w_os w) = (Exited 0, s1) ->
     os_run (inv_args (git_checkout after)) false s1 = (Exited 0, s2) ->
     os_run (inv_args (zig_build after)) true s2 = (out, s3) ->
     check_outcome (inv_args (zig_build after)) true out = Raise e ->
     is_Exception e = true ->
     (print_error (line_errored e) = None ->
      exists w',
        response (JsonRequest (PDict m)) w = (Return (error_500 e), w') /\
        w_calls w' = w_calls w ++ [git_fetch; git_checkout after; zig_build after])
     /\
     (forall e',
        print_error (line_errored e) = Some e' ->
        exists w',
          response (JsonRequest (PDict m)) w = (Raise e', w') /\
          w_calls w' = w_calls w ++ [git_fetch; git_checkout after; zig_build after])).
Proof.
  intros Href Hafter P1. split; [ | split ].
  - intros out s1 e Hf Ef. eexists. split.
    + exact (path_fetch_raises m Href P1 w out s1 e Hf Ef).
    + reflexivity.
  - intros s1 out s2 e P2 Hf Hc Ec. eexists. split.
    + exact (path_checkout_raises m Href P1 after Hafter P2 w s1 out s2 e Hf Hc Ec).
    + reflexivity.
  - intros s1 s2 out s3 e P2 Hf Hc Hb Eb He. split.
    + intros P3. eexists. split.
      * exact (path_build_caught m Href P1 after Hafter P2
                 w s1 s2 out s3 e Hf Hc Hb Eb He P3).
      * reflexivity.
    + intros e' P3. eexists. split.
      * exact (path_third_print_raises m Href P1 after Hafter P2
                 w s1 s2 out s3 e e' Hf Hc Hb Eb He P3).
      * reflexivity.
Qed.

Lemma only_build_is_guarded_witness :
  (exists w',
     response (RT := Mock.scripted)
       (Mock.push "refs/heads/main" "deadbeef") (Mock.start [Exited 128])
       = (Raise (CalledProcessError 128 (inv_args git_fetch)), w') /\
     w_calls w' = [git_fetch])
  /\
  (exists w',
     response (RT := Mock.scripted)
       (Mock.push "refs/heads/main" "deadbeef") (Mock.start [Exited 0; Exited 1])
       = (Raise (CalledProcessError 1 (inv_args (git_checkout (PStr "deadbeef")))), w') /\
     w_calls w' = [git_fetch; git_checkout (PStr "deadbeef")])
  /\
  (exists w',
     response (RT := Mock.scripted)
       (Mock.push "refs/heads/main" "deadbeef")
       (Mock.start [Exited 0; Exited 0; Exited 1])
       = (Return (error_500 (RT := Mock.scripted)
                    (CalledProcessError 1
                       (inv_args (zig_build (RT := Mock.scripted) (PStr "deadbeef"))))),
          w') /\
     w_calls w' =
       [git_fetch; git_checkout (PStr "deadbeef");
        zig_build (RT := Mock.scripted) (PStr "deadbeef")]).
Proof.
  pose (m := (<["ref" := PStr "refs/heads/main"]> (<["after" := PStr "deadbeef"]> ∅))
             : gmap string pyval).
  assert (Href : m !! "ref" = Some (PStr "refs/heads/main"))
    by (vm_compute; reflexivity).
  assert (Hafter : m !! "after" = Some (PStr "deadbeef"))
    by (vm_compute; reflexivity).
  split; [ | split ].
  - apply (proj1 (only_build_is_guarded (RT := Mock.scripted) m (PStr "deadbeef")
                    (Mock.start [Exited 128]) Href Hafter eq_refl)
             (Exited 128) []); reflexivity.
  - apply (proj1 (proj2 (only_build_is_guarded (RT := Mock.scripted) m (PStr "deadbeef")
                           (Mock.start [Exited 0; Exited 1]) Href Hafter eq_refl))
             [Exited 1] (Exited 1) []); reflexivity.
  - apply (proj1 (proj2 (proj2 (only_build_is_guarded (RT := Mock.scripted) m
                                  (PStr "deadbeef")
                                  (Mock.start [Exited 0; Exited 0; Exited 1])
                                  Href Hafter eq_refl))
                    [Exited 0; Exited 1] [Exited 1] (Exited 1) []
                    (CalledProcessError 1
                       (inv_args (zig_build (RT := Mock.scripted) (PStr "deadbeef"))))
                    eq_refl eq_refl eq_refl eq_refl eq_refl eq_refl));
      reflexivity.
Defined.

(** C4, as stated, fails for a build failure whose line cannot be printed.
    Fetch and checkout exit with 0, launching the build raises [OSError],
    and the standard output breaks before ["errored: ..."] is written: the
    failure of the build is caught, but it is not translated into a
    response; the exception of the [print] leaves the view. *)
Lemma caught_build_failure_unanswered :
  let RT := Mock.scripted_with (Mock.broken_at "errored") in
  let w := World (RT := RT)
             [Exited 0; Exited 0; Failed (LibraryError "OSError" "boom")] [] [] in
  is_Exception (LibraryError "OSError" "boom") = true
  /\
  response (RT := RT) (Mock.push "refs/heads/main" "deadbeef") w
    = (Raise (LibraryError "BrokenPipeError" "Broken pipe"),
       World (RT := RT) []
         [git_fetch; git_checkout (PStr "deadbeef"); zig_build (RT := RT) (PStr "deadbeef")]
         ["fetching new changes"; "checking out new changes deadbeef"])
  /\
  ~ (exists rv w',
       response (RT := RT) (Mock.push "refs/heads/main" "deadbeef") w
       = (Return rv, w')).
Proof.
  intros RT w.
  assert (E : response (RT := RT) (Mock.push "refs/heads/main" "deadbeef") w
              = (Raise (LibraryError "BrokenPipeError" "Broken pipe"),
                 World (RT := RT) []
                   [git_fetch; git_checkout (PStr "deadbeef");
                    zig_build (RT := RT) (PStr "deadbeef")]
                   ["fetching new changes"; "checking out new changes deadbeef"]))
    by (vm_compute; reflexivity).
  repeat split; try reflexivity; try exact E.
  intros (rv & w' & E'). rewrite E in E'. discriminate.
Qed.

(** C5.  The commands.  On a push to [refs/heads/main] with the string
    [after], the calls of [subprocess.run] are, in this order and as far as
    the run gets: the argument list [git fetch --all]; the argument list
    [git checkout after]; and, with [shell=True], the one string
    [/home/ubuntu/zig-linux-x86_64-0.13.0/zig build -Doptimize=ReleaseSafe
    benchmark -- gossip --telemetry=] followed by [after].  No other command
    is launched.  The fetch is called once the first line is printed, and
    all three are once both progress lines are printed and fetch and
    checkout exit with 0. *)
Theorem command_shapes `{RT : Runtime}
    (m : gmap string pyval) (after : string) (w : world) :
  m !! "ref" = Some (PStr "refs/heads/main") ->
  m !! "after" = Some (PStr after) ->
  let commands :=
    [ Invocation (PList [PStr "git"; PStr "fetch"; PStr "--all"]) true false;
      Invocation (PList [PStr "git"; PStr "checkout"; PStr after]) true false;
      Invocation
        (PStr ("/home/ubuntu/zig-linux-x86_64-0.13.0/zig build -Doptimize=ReleaseSafe benchmark -- gossip --telemetry="
               +:+ after)) true true ] in
  let w' := (response (JsonRequest (PDict m)) w).2 in
  (exists n,
     (print_error "fetching new changes" = None -> (1 <= n)%nat) /\
     w_calls w' = w_calls w ++ take n commands)
  /\
  (forall s1 s2,
     print_error "fetching new changes" = None ->
     print_error ("checking out new changes " +:+ after) = None ->
     os_run (PList [PStr "git"; PStr "fetch"; PStr "--all"]) false (w_os w)
       = (Exited 0, s1) ->
     os_run (PList [PStr "git"; PStr "checkout"; PStr after]) false s1
       = (Exited 0, s2) ->
     w_calls w' = w_calls w ++ commands).
Proof.
  intros Href Hafter commands w'.
  assert (Hcases :
            (exists e, print_error line_fetching = Some e) /\ w_calls w' = w_calls w
            \/ w_calls w' = w_calls w ++ take 1 commands
            \/ w_calls w' = w_calls w ++ take 2 commands
            \/ (w_calls w' = w_calls w ++ commands /\
                print_error line_fetching = None)).
  { subst w'. destruct (response (JsonRequest (PDict m)) w) as [r w1] eqn:E.
    apply response_eq_run_path in E. cbn [snd].
    inversion E; subst; simplify_eq.
    - match goal with Hd : forall m, _ <> PDict m |- _ => now destruct (Hd m) end.
    - left. eauto.
    - right. now left.
    - right. now left.
    - right. right. now left.
    - right. right. right. now split.
    - right. right. right. now split.
    - right. right. right. now split.
    - right. right. right. now split. }
  split.
  - destruct Hcases as [[[e He] Hc] | [Hc | [Hc | [Hc _]]]].
    + exists 0%nat. split.
      * intros P1. unfold line_fetching in He. congruence.
      * cbn. now rewrite app_nil_r.
    + exists 1%nat. split; [ lia | exact Hc ].
    + exists 2%nat. split; [ lia | exact Hc ].
    + exists 3%nat. split; [ lia | exact Hc ].
  - intros s1 s2 P1 P2 Hf Hc. subst w'.
    destruct (os_run (inv_args (zig_build (PStr after))) true s2) as [ob s3] eqn:Hb.
    destruct (check_outcome (inv_args (zig_build (PStr after))) true ob) as [rc|e] eqn:Eb.
    + apply check_outcome_return in Eb as [-> _].
      now rewrite (path_build_returns m Href P1 _ Hafter P2 w s1 s2 s3 Hf Hc Hb).
    + destruct (is_Exception e) eqn:He.
      * destruct (print_error (line_errored e)) as [p3|] eqn:P3.
        -- now rewrite (path_third_print_raises m Href P1 _ Hafter P2
                          w s1 s2 ob s3 e p3 Hf Hc Hb Eb He P3).
        -- now rewrite (path_build_caught m Href P1 _ Hafter P2
                          w s1 s2 ob s3 e Hf Hc Hb Eb He P3).
      * now rewrite (path_build_passes m Href P1 _ Hafter P2
                       w s1 s2 ob s3 e Hf Hc Hb Eb He).
Qed.

Lemma command_shapes_witness :
  w_calls (response (RT := Mock.scripted)
             (Mock.push "refs/heads/main" "deadbeef") (Mock.start [])).2 =
    [ Invocation (PList [PStr "git"; PStr "fetch"; PStr "--all"]) true false;
      Invocation (PList [PStr "git"; PStr "checkout"; PStr "deadbeef"]) true false;
      Invocation
        (PStr "/home/ubuntu/zig-linux-x86_64-0.13.0/zig build -Doptimize=ReleaseSafe benchmark -- gossip --telemetry=deadbeef")
        true true ].
Proof.
  pose (m := (<["ref" := PStr "refs/heads/main"]> (<["after" := PStr "deadbeef"]> ∅))
             : gmap string pyval).
  assert (Href : m !! "ref" = Some (PStr "refs/heads/main"))
    by (vm_compute; reflexivity).
  assert (Hafter : m !! "after" = Some (PStr "deadbeef"))
    by (vm_compute; reflexivity).
  apply (proj2 (command_shapes (RT := Mock.scripted) m "deadbeef" (Mock.start [])
                  Href Hafter)
           [] []);
    reflexivity.
Defined.






(** C8, as the code has it.  A push to [refs/heads/main] whose payload has
    no [after]: the view raises.  Once the first line is printed, the fetch
    is called, exactly once, and nothing else is; when the fetch exits with
    0 the exception is the [KeyError] of reading [after]; otherwise it is
    the one of the fetch.  When the [print] of the first line raises, its
    exception leaves the view before anything is launched. *)
Theorem missing_after_faults_after_fetch `{RT : Runtime}
    (m : gmap string pyval) (w : world) out s1 :
  m !! "ref" = Some (PStr "refs/heads/main") ->
  m !! "after" = None ->
  os_run (inv_args git_fetch) false (w_os w) = (out, s1) ->
  exists e w',
    response (JsonRequest (PDict m)) w = (Raise e, w') /\
    (print_error "fetching new changes" = None ->
     w_calls w' = w_calls w ++ [git_fetch] /\
     (out = Exited 0 -> e = KeyError "after") /\
     (forall e', check_outcome (inv_args git_fetch) true out = Raise e' -> e = e'))
    /\
    (forall e', print_error "fetching new changes" = Some e' -> e = e' /\ w' = w).
Proof.
  intros Href Hafter Hf.
  destruct (print_error line_fetching) as [p1|] eqn:P1.
  { exists p1, w. split; [ | split ].
    - exact (path_first_print_raises m Href w p1 P1).
    - unfold line_fetching in P1. congruence.
    - unfold line_fetching in P1. intros e' E'. split; congruence. }
  destruct (check_outcome (inv_args git_fetch) true out) as [rc|e] eqn:Ef.
  - apply check_outcome_return in Ef as [-> _].
    exists (KeyError "after"). eexists. split; [ | split ].
    + exact (path_after_missing m Href P1 w s1 Hafter Hf).
    + intros _. split; [ reflexivity | split; [ reflexivity | discriminate ] ].
    + unfold line_fetching in P1. congruence.
  - exists e. eexists. split; [ | split ].
    + exact (path_fetch_raises m Href P1 w out s1 e Hf Ef).
    + intros _. split; [ reflexivity | split ].
      * intros ->. discriminate.
      * now intros e' [= ->].
    + unfold line_fetching in P1. congruence.
Qed.

Lemma missing_after_faults_after_fetch_witness :
  exists e w',
    response (RT := Mock.scripted)
      (Mock.push_without_after "refs/heads/main") (Mock.start [])
      = (Raise e, w') /\
    w_calls w' = [git_fetch] /\
    (Exited 0 = Exited 0 -> e = KeyError "after") /\
    (forall e', check_outcome (inv_args git_fetch) true (Exited 0) = Raise e' -> e = e').
Proof.
  destruct (missing_after_faults_after_fetch (RT := Mock.scripted)
              (<["ref" := PStr "refs/heads/main"]> ∅) (Mock.start []) (Exited 0) [])
    as (e & w' & E & Hprinted & _).
  - vm_compute; reflexivity.
  - vm_compute; reflexivity.
  - reflexivity.
  - exists e, w'. split; [ exact E | ]. exact (Hprinted eq_refl).
Defined.

(** C8, as stated, fails when the fetch itself fails: on the payload
    [{"ref": "refs/heads/main"}] with a fetch that exits with 1, the view
    raises [CalledProcessError] and never reads [after]. *)
Lemma missing_after_fetch_exit_1 :
  response (RT := Mock.scripted)
    (Mock.push_without_after "refs/heads/main") (Mock.start [Exited 1])
  = (Raise (CalledProcessError 1 (PList [PStr "git"; PStr "fetch"; PStr "--all"])),
     World (RT := Mock.scripted) [] [git_fetch] ["fetching new changes"])
  /\
  ~ (exists w',
       response (RT := Mock.scripted)
         (Mock.push_without_after "refs/heads/main") (Mock.start [Exited 1])
       = (Raise (KeyError "after"), w')).
Proof.
  assert (E : response (RT := Mock.scripted)
                (Mock.push_without_after "refs/heads/main") (Mock.start [Exited 1])
              = (Raise (CalledProcessError 1 (PList [PStr "git"; PStr "fetch"; PStr "--all"])),
                 World (RT := Mock.scripted) [] [git_fetch] ["fetching new changes"]))
    by (vm_compute; reflexivity).
  split; [exact E | ].
  intros [w' E']. rewrite E in E'. discriminate.
Qed.

(** C9.  A request whose body is not a dict with the key [ref] (the key is
    missing, the body is some other JSON value, or [get_json] itself
    raises): the view raises and leaves the world as it was, so no process
    was launched and no response value was built.  The exception is
    [KeyError] for the missing key, [TypeError] for a body that is not a
    dict, and the one of [get_json] otherwise. *)
Theorem no_ref_faults_first `{RT : Runtime} (request : Request) (w : world) :
  (forall m, request = JsonRequest (PDict m) -> m !! "ref" = None) ->
  exists e,
    response request w = (Raise e, w) /\
    (forall m, request = JsonRequest (PDict m) -> e = KeyError "ref") /\
    (forall data, request = JsonRequest data ->
                  (forall m, data <> PDict m) -> e = TypeError data) /\
    (forall e', request = BadRequest e' -> e = e').
Proof.
  intros Hno.
  destruct request as [data|e0].
  - destruct data as [ | b | n | f | s | l | m ].
    7: { exists (KeyError "ref"). pose proof (Hno m eq_refl) as Hm.
         split; [ run; reflexivity | ].
         split; [ reflexivity | ].
         split; [ | discriminate ].
         intros data [= <-] Hd. now destruct (Hd m). }
    all: eexists (TypeError _); split; [ reflexivity | ];
      split; [ discriminate | ];
      split; [ now intros data [= <-] _ | discriminate ].
  - exists e0. split; [ reflexivity | ].
    split; [ discriminate | ].
    split; [ discriminate | ].
    now intros e' [= ->].
Qed.

Lemma no_ref_faults_first_witness :
  exists e,
    response (RT := Mock.scripted)
      (JsonRequest (PDict (<["after" := PStr "deadbeef"]> ∅))) (Mock.start [])
    = (Raise e, Mock.start []) /\
    (forall m, JsonRequest (PDict (<["after" := PStr "deadbeef"]> ∅))
               = JsonRequest (PDict m) -> e = KeyError "ref") /\
    (forall data, JsonRequest (PDict (<["after" := PStr "deadbeef"]> ∅))
                  = JsonRequest data ->
                  (forall m, data <> PDict m) -> e = TypeError data) /\
    (forall e', JsonRequest (PDict (<["after" := PStr "deadbeef"]> ∅))
                = BadRequest e' -> e = e').
Proof.
  apply (no_ref_faults_first (RT := Mock.scripted)
           (JsonRequest (PDict (<["after" := PStr "deadbeef"]> ∅))) (Mock.start [])).
  intros m [= <-]. vm_compute. reflexivity.
Defined.

(** C10.  Whenever the view returns a value, the response is one of two:
    status 200 with an empty body, or status 500 with a JSON object whose
    keys are exactly [message] and [error]. *)
Theorem returned_shapes `{RT : Runtime} (request : Request) (w : world) rv w' :
  response request w = (Return rv, w') ->
  make_response rv = {| status := 200; body := EmptyBody |}
  \/
  (status (make_response rv) = 500%Z /\
   exists d : gmap string pyval,
     body (make_response rv) = JsonBody (PDict d) /\
     dom d = ({["message"; "error"]} : gset string)).
Proof.
  intros H. destruct (response_returns request w rv w' H) as [-> | [e ->]].
  - left. reflexivity.
  - right. split; [ reflexivity | ].
    eexists. split; [ reflexivity | ]. apply error_500_keys.
Qed.

Lemma returned_shapes_witness :
  make_response (error_500 (RT := Mock.scripted)
                   (CalledProcessError 1
                      (inv_args (zig_build (RT := Mock.scripted) (PStr "deadbeef")))))
    = {| status := 200; body := EmptyBody |}
  \/
  (status (make_response (error_500 (RT := Mock.scripted)
             (CalledProcessError 1
                (inv_args (zig_build (RT := Mock.scripted) (PStr "deadbeef"))))))
     = 500%Z /\
   exists d : gmap string pyval,
     body (make_response (error_500 (RT := Mock.scripted)
             (CalledProcessError 1
                (inv_args (zig_build (RT := Mock.scripted) (PStr "deadbeef"))))))
       = JsonBody (PDict d) /\
     dom d = ({["message"; "error"]} : gset string)).
Proof.
  apply (returned_shapes (RT := Mock.scripted)
           (Mock.push "refs/heads/main" "deadbeef")
           (Mock.start [Exited 0; Exited 0; Exited 1]) _
           (World (RT := Mock.scripted) []
              [git_fetch; git_checkout (PStr "deadbeef");
               zig_build (RT := Mock.scripted) (PStr "deadbeef")]
              ["fetching new changes"; "checking out new changes deadbeef";
               "errored: Command returned non-zero exit status"])).
  vm_compute. reflexivity.
Defined.

(** ** Further properties of the handler *)

(** X1.  What the view launches, for every request and every boundary.
    Unless the request is a push to the main branch the world is left as it
    was.  On a push to the main branch the calls of [subprocess.run] are
    none (only when the [print] of the first line raises, and then the
    world is left as it was), or the fetch alone, or the fetch and the
    checkout of the payload's [after], or these two and the build for the
    same [after] (whatever JSON value [after] is); nothing else is ever
    launched. *)
Theorem launches_classified `{RT : Runtime} (request : Request) (w : world) :
  let w' := (response request w).2 in
  (~ main_push request /\ w' = w)
  \/
  (exists m : gmap string pyval,
     request = JsonRequest (PDict m) /\
     m !! "ref" = Some (PStr "refs/heads/main") /\
     (((exists e, print_error "fetching new changes" = Some e) /\ w' = w)
      \/
      w_calls w' = w_calls w ++ [git_fetch]
      \/
      exists after,
        m !! "after" = Some after /\
        (w_calls w' = w_calls w ++ [git_fetch; git_checkout after]
         \/
         w_calls w' = w_calls w ++ [git_fetch; git_checkout after; zig_build after]))).
Proof.
  intros w'. subst w'.
  destruct (response request w) as [r w1] eqn:E. cbn.
  apply response_eq_run_path in E.
  inversion E; subst.
  - left. split; [ | reflexivity ]. now intros (m & [=] & _).
  - left. split; [ | reflexivity ]. intros (m & [= ->] & _).
    match goal with Hd : forall m, _ <> PDict m |- _ => now destruct (Hd m) end.
  - left. split; [ | reflexivity ]. intros (m' & [= <-] & Hm). congruence.
  - left. split; [ | reflexivity ]. intros (m' & [= <-] & Hm). congruence.
  - right. exists m. repeat split; try assumption. left. split; [ eauto | reflexivity ].
  - right. exists m. repeat split; try assumption. right. now left.
  - right. exists m. repeat split; try assumption. right. now left.
  - right. exists m. repeat split; try assumption. right. now left.
  - right. exists m. repeat split; try assumption. right. right. exists after.
    split; [ assumption | now left ].
  - right. exists m. repeat split; try assumption. right. right. exists after.
    split; [ assumption | now right ].
  - right. exists m. repeat split; try assumption. right. right. exists after.
    split; [ assumption | now right ].
  - right. exists m. repeat split; try assumption. right. right. exists after.
    split; [ assumption | now right ].
  - right. exists m. repeat split; try assumption. right. right. exists after.
    split; [ assumption | now right ].
Qed.

(** X2.  A 200 is never a hidden failure.  When the view answers 200,
    either the payload's [ref] is not [refs/heads/main] and nothing was
    done, or the fetch, the checkout and the build were each launched and
    each exited with 0. *)
Theorem answer_200_is_honest `{RT : Runtime}
    (request : Request) (w : world) rv w' :
  response request w = (Return rv, w') ->
  status (make_response rv) = 200%Z ->
  (w' = w /\
   exists (m : gmap string pyval) ref,
     request = JsonRequest (PDict m) /\
     m !! "ref" = Some ref /\ ref <> PStr "refs/heads/main")
  \/
  (exists (m : gmap string pyval) after s1 s2 s3,
     request = JsonRequest (PDict m) /\
     m !! "ref" = Some (PStr "refs/heads/main") /\
     m !! "after" = Some after /\
     os_run (inv_args git_fetch) false (w_os w) = (Exited 0, s1) /\
     os_run (inv_args (git_checkout after)) false s1 = (Exited 0, s2) /\
     os_run (inv_args (zig_build after)) true s2 = (Exited 0, s3) /\
     w_calls w' = w_calls w ++ [git_fetch; git_checkout after; zig_build after]).
Proof.
  intros E Hst. apply response_eq_run_path in E.
  inversion E; subst.
  - left. split; [ reflexivity | ]. now exists m, ref.
  - right. exists m, after, s1, s2, s3. now repeat split.
  - cbn in Hst. discriminate.
Qed.

Lemma answer_200_is_honest_witness :
  let w := Mock.start [Exited 0; Exited 0; Exited 0; Exited 1] in
  let w' :=
    World (RT := Mock.scripted) [Exited 1]
      [git_fetch; git_checkout (PStr "deadbeef");
       zig_build (RT := Mock.scripted) (PStr "deadbeef")]
      ["fetching new changes"; "checking out new changes deadbeef"] in
  response (RT := Mock.scripted) (Mock.push "refs/heads/main" "deadbeef") w
    = (Return ok_200, w')
  /\
  ((w' = w /\
    exists (m : gmap string pyval) ref,
      Mock.push "refs/heads/main" "deadbeef" = JsonRequest (PDict m) /\
      m !! "ref" = Some ref /\ ref <> PStr "refs/heads/main")
   \/
   (exists (m : gmap string pyval) after s1 s2 s3,
      Mock.push "refs/heads/main" "deadbeef" = JsonRequest (PDict m) /\
      m !! "ref" = Some (PStr "refs/heads/main") /\
      m !! "after" = Some after /\
      os_run (Runtime := Mock.scripted) (inv_args git_fetch) false (w_os w)
        = (Exited 0, s1) /\
      os_run (Runtime := Mock.scripted) (inv_args (git_checkout after)) false s1
        = (Exited 0, s2) /\
      os_run (Runtime := Mock.scripted)
        (inv_args (zig_build (RT := Mock.scripted) after)) true s2
        = (Exited 0, s3) /\
      w_calls w' =
        w_calls w ++ [git_fetch; git_checkout after;
                      zig_build (RT := Mock.scripted) after])).
Proof.
  intros w w'.
  assert (E : response (RT := Mock.scripted)
                (Mock.push "refs/heads/main" "deadbeef") w = (Return ok_200, w'))
    by (vm_compute; reflexivity).
  split; [ exact E | ].
  exact (answer_200_is_honest (RT := Mock.scripted)
           (Mock.push "refs/heads/main" "deadbeef") w ok_200 w' E eq_refl).
Defined.

(** X3.  A 500 returned by the view is always a failed build.  When the
    view answers 500, the request was a push to the main branch with an
    [after], the fetch and the checkout exited with 0, the build call
    raised an [Exception] [e], the body carries [str(e)], and the last
    line printed is ["errored: "] followed by the same text. *)
Theorem answer_500_is_build_failure `{RT : Runtime}
    (request : Request) (w : world) rv w' :
  response request w = (Return rv, w') ->
  status (make_response rv) = 500%Z ->
  exists (m : gmap string pyval) after s1 s2 out s3 e,
    request = JsonRequest (PDict m) /\
    m !! "ref" = Some (PStr "refs/heads/main") /\
    m !! "after" = Some after /\
    os_run (inv_args git_fetch) false (w_os w) = (Exited 0, s1) /\
    os_run (inv_args (git_checkout after)) false s1 = (Exited 0, s2) /\
    os_run (inv_args (zig_build after)) true s2 = (out, s3) /\
    check_outcome (inv_args (zig_build after)) true out = Raise e /\
    is_Exception e = true /\
    rv = error_500 e /\
    w_calls w' = w_calls w ++ [git_fetch; git_checkout after; zig_build after] /\
    w_stdout w' =
      w_stdout w ++ ["fetching new changes";
                     "checking out new changes " +:+ py_format after;
                     "errored: " +:+ str_exception e].
Proof.
  intros E Hst. apply response_eq_run_path in E.
  inversion E; subst.
  - cbn in Hst. discriminate.
  - cbn in Hst. discriminate.
  - exists m, after, s1, s2, out, s3, e. now repeat split.
Qed.

Lemma answer_500_is_build_failure_witness :
  exists (m : gmap string pyval) after s1 s2 out s3 e,
    Mock.push "refs/heads/main" "deadbeef" = JsonRequest (PDict m) /\
    m !! "ref" = Some (PStr "refs/heads/main") /\
    m !! "after" = Some after /\
    os_run (Runtime := Mock.scripted) (inv_args git_fetch) false
      [Exited 0; Exited 0; Exited 1] = (Exited 0, s1) /\
    os_run (Runtime := Mock.scripted) (inv_args (git_checkout after)) false s1
      = (Exited 0, s2) /\
    os_run (Runtime := Mock.scripted)
      (inv_args (zig_build (RT := Mock.scripted) after)) true s2 = (out, s3) /\
    check_outcome (inv_args (zig_build (RT := Mock.scripted) after)) true out
      = Raise e /\
    is_Exception e = true /\
    error_500 (RT := Mock.scripted)
      (CalledProcessError 1
         (inv_args (zig_build (RT := Mock.scripted) (PStr "deadbeef"))))
      = error_500 (RT := Mock.scripted) e /\
    [git_fetch; git_checkout (PStr "deadbeef");
     zig_build (RT := Mock.scripted) (PStr "deadbeef")]
      = [] ++ [git_fetch; git_checkout after; zig_build (RT := Mock.scripted) after] /\
    ["fetching new changes"; "checking out new changes deadbeef";
     "errored: Command returned non-zero exit status"]
      = [] ++ ["fetching new changes";
               "checking out new changes " +:+ py_format (RT := Mock.scripted) after;
               "errored: " +:+ str_exception (Runtime := Mock.scripted) e].
Proof.
  apply (answer_500_is_build_failure (RT := Mock.scripted)
           (Mock.push "refs/heads/main" "deadbeef")
           (Mock.start [Exited 0; Exited 0; Exited 1])
           (error_500 (RT := Mock.scripted)
              (CalledProcessError 1
                 (inv_args (zig_build (RT := Mock.scripted) (PStr "deadbeef")))))
           (World (RT := Mock.scripted) []
              [git_fetch; git_checkout (PStr "deadbeef");
               zig_build (RT := Mock.scripted) (PStr "deadbeef")]
              ["fetching new changes"; "checking out new changes deadbeef";
               "errored: Command returned non-zero exit status"])).
  - vm_compute. reflexivity.
  - reflexivity.
Defined.

(** X4.  The guard around the build is [except Exception].  When both
    progress lines are printed, fetch and checkout exit with 0 and launching
    the build raises something that is not an [Exception] (a
    [KeyboardInterrupt]), the view does not answer: it raises the same
    object, and prints no ["errored"] line. *)
Theorem build_interrupt_not_caught `{RT : Runtime}
    (m : gmap string pyval) (after : pyval) (w : world) s1 s2 s3 (e : exn) :
  m !! "ref" = Some (PStr "refs/heads/main") ->
  m !! "after" = Some after ->
  print_error line_fetching = None ->
  print_error (line_checkout after) = None ->
  os_run (inv_args git_fetch) false (w_os w) = (Exited 0, s1) ->
  os_run (inv_args (git_checkout after)) false s1 = (Exited 0, s2) ->
  os_run (inv_args (zig_build after)) true s2 = (Failed e, s3) ->
  is_Exception e = false ->
  response (JsonRequest (PDict m)) w =
    (Raise e,
     World s3 (w_calls w ++ [git_fetch; git_checkout after; zig_build after])
       (w_stdout w ++ ["fetching new changes";
                       "checking out new changes " +:+ py_format after])).
Proof.
  intros Href Hafter P1 P2 Hf Hc Hb He.
  exact (path_build_passes m Href P1 after Hafter P2 w s1 s2 (Failed e) s3 e
           Hf Hc Hb eq_refl He).
Qed.

Lemma build_interrupt_not_caught_witness :
  response (RT := Mock.scripted)
    (Mock.push "refs/heads/main" "deadbeef")
    (Mock.start [Exited 0; Exited 0; Failed KeyboardInterrupt]) =
    (Raise KeyboardInterrupt,
     World (RT := Mock.scripted) []
       ([] ++ [git_fetch; git_checkout (PStr "deadbeef");
               zig_build (RT := Mock.scripted) (PStr "deadbeef")])
       ([] ++ ["fetching new changes";
               "checking out new changes " +:+ "deadbeef"])).
Proof.
  pose (m := (<["ref" := PStr "refs/heads/main"]> (<["after" := PStr "deadbeef"]> ∅))
             : gmap string pyval).
  assert (Href : m !! "ref" = Some (PStr "refs/heads/main"))
    by (vm_compute; reflexivity).
  assert (Hafter : m !! "after" = Some (PStr "deadbeef"))
    by (vm_compute; reflexivity).
  apply (build_interrupt_not_caught (RT := Mock.scripted) m (PStr "deadbeef")
           (Mock.start [Exited 0; Exited 0; Failed KeyboardInterrupt])
           [Exited 0; Failed KeyboardInterrupt] [Failed KeyboardInterrupt] []
           KeyboardInterrupt Href Hafter);
    reflexivity.
Defined.

(** X5.  A fault that launched nothing.  When the view raises and no call
    of [subprocess.run] was made, the world is as it was, and either the
    request had no dict with the key [ref], or it was a push to the main
    branch and the exception is the one the [print] of the first line
    raised. *)
Theorem fault_without_launch `{RT : Runtime}
    (request : Request) (w : world) e w' :
  response request w = (Raise e, w') ->
  w_calls w' = w_calls w ->
  w' = w /\
  ((forall m, request = JsonRequest (PDict m) -> m !! "ref" = None)
   \/
   (main_push request /\ print_error "fetching new changes" = Some e)).
Proof.
  intros E Hcalls. apply response_eq_run_path in E.
  assert (Hgrow : forall (l : list invocation) x t, l ++ x :: t = l -> False).
  { intros l x t H. apply (f_equal length) in H.
    rewrite length_app in H. cbn in H. lia. }
  inversion E; subst; cbn in Hcalls;
    try (exfalso; exact (Hgrow _ _ _ Hcalls)).
  - split; [ reflexivity | ]. left. intros m [=].
  - split; [ reflexivity | ]. left. intros m [= ->].
    match goal with Hd : forall m, _ <> PDict m |- _ => now destruct (Hd m) end.
  - split; [ reflexivity | ]. left. now intros m' [= <-].
  - split; [ reflexivity | ]. right. split; [ | assumption ].
    now exists m.
Qed.

Lemma fault_without_launch_witness :
  let RT := Mock.scripted_with (Mock.broken_at "fetching") in
  let w := World (RT := RT) [Exited 0] [] [] in
  w = w /\
  ((forall m, Mock.push "refs/heads/main" "deadbeef" = JsonRequest (PDict m) ->
              m !! "ref" = None)
   \/
   (main_push (Mock.push "refs/heads/main" "deadbeef") /\
    print_error (Runtime := RT) "fetching new changes"
      = Some (LibraryError "BrokenPipeError" "Broken pipe"))).
Proof.
  intros RT w.
  apply (fault_without_launch (RT := RT)
           (Mock.push "refs/heads/main" "deadbeef") w
           (LibraryError "BrokenPipeError" "Broken pipe") w).
  - vm_compute. reflexivity.
  - reflexivity.
Defined.


